(** * Isha voice-assistant backend: the conversation-turn pipeline

    A shallow embedding of [app.py] (the [isha_agent] turn processor and the
    [/chat] endpoint around it) and of the one constant of [config.py] that
    concerns the pipeline, followed by the properties of the turn pipeline.

    Modelling conventions.
    - Text is a [string]: a sequence of 8-bit characters.  [str.lower] and
      [str.strip] act on the ASCII letters and the ASCII whitespace.
    - A message is a Python dict used as a struct; it is a record whose fields
      are optional, [None] standing for an absent key, so that
      [msg.get(k)] and [msg.get(k, d)] keep their meaning.  The values under
      ["role"], ["content"], ["timestamp"], ["message_id"] are text and the
      one under ["error"] is a boolean, as in every dict the program builds.
    - [ConversationState] is the program's [TypedDict] of the same name.
    - The program's effects are explicit: reading the clock
      ([datetime.now()]), calling the completion client ([llm.invoke]) and
      raising an exception.  They live in the monad [M] over a [World] that
      counts clock readings and records every prompt sent to the client.
      Logging is not modelled.
    - The completion client and the clock are external: they are the fields
      of an environment [Env] over which every statement quantifies. *)

From Stdlib Require Import Ascii String.
From stdpp Require Import base option list strings gmap.

(** ** Text operations of the Python runtime *)

Definition nl : string := String (ascii_of_nat 10) "".
Definition dq : string := String (ascii_of_nat 34) "".

(** [c.lower()] for one character. *)
Definition lower_char (c : ascii) : ascii :=
  let n := nat_of_ascii c in
  if (65 <=? n) && (n <=? 90) then ascii_of_nat (n + 32) else c.

(** [s.lower()] *)
Fixpoint lower (s : string) : string :=
  match s with
  | EmptyString => EmptyString
  | String c s' => String (lower_char c) (lower s')
  end.

(** [s.startswith(p)] *)
Fixpoint starts_with (p s : string) : bool :=
  match p, s with
  | EmptyString, _ => true
  | String a p', String b s' => bool_decide (a = b) && starts_with p' s'
  | String _ _, EmptyString => false
  end.

(** [sub in s] *)
Fixpoint contains (sub s : string) : bool :=
  starts_with sub s ||
  match s with
  | EmptyString => false
  | String _ s' => contains sub s'
  end.

(** The declarative reading of [sub in s]. *)
Definition is_substring (sub s : string) : Prop :=
  ∃ before after, s = before +:+ sub +:+ after.

(** Whitespace removed by [str.strip()]: tab, line feed, vertical tab, form
    feed, carriage return, the four separators 28..31, and space. *)
Definition is_space (c : ascii) : bool :=
  let n := nat_of_ascii c in
  ((9 <=? n) && (n <=? 13)) || ((28 <=? n) && (n <=? 32)).

Fixpoint lstrip (s : string) : string :=
  match s with
  | EmptyString => EmptyString
  | String c s' => if is_space c then lstrip s' else s
  end.

Fixpoint rstrip (s : string) : string :=
  match s with
  | EmptyString => EmptyString
  | String c s' =>
      match rstrip s' with
      | EmptyString => if is_space c then EmptyString else String c EmptyString
      | r => String c r
      end
  end.

(** [s.strip()] *)
Definition strip (s : string) : string := rstrip (lstrip s).

(** [o == s] where [o] is the result of [d.get(k)]. *)
Definition get_eq (o : option string) (s : string) : bool :=
  bool_decide (o = Some s).

(** ** Data model *)

(** A message dict. *)
Record Message := {
  role : option string;
  content : option string;
  timestamp : option string;
  message_id : option string;
  error : option bool
}.

(** [class ConversationState(TypedDict)] *)
Record ConversationState := {
  messages : list Message;
  user_name : string;
  context : gmap string string
}.

(** The LangChain message classes, as the constructor calls of the program. *)
Inductive LCMessage :=
| SystemMessage (text : string)
| HumanMessage (text : string)
| AIMessage (text : string).

(** A Python exception, with its message. *)
Inductive exn := Exception (msg : string).

(** Truth value of a dict: it has at least one key.  Keys other than the five
    of [Message] are not represented; a dict that holds only such keys has no
    role, and the one test that uses this truth value (line 74) then takes
    the same branch. *)
Definition dict_truthy (m : Message) : bool :=
  bool_decide (is_Some (role m)) || bool_decide (is_Some (content m)) ||
  bool_decide (is_Some (timestamp m)) || bool_decide (is_Some (message_id m)) ||
  bool_decide (is_Some (error m)).

(** Truth value of a list: it is not empty. *)
Definition list_truthy {A} (l : list A) : bool :=
  match l with [] => false | _ => true end.

(** ** The environment and the effects *)

(** What the process is given from outside.
    - [llm]: the module-level client; [None] when no API key is configured
      or the client could not be built.  [llm.invoke(prompt).content] either
      is the generated text or the call raises.
    - [isoformat k], [epoch k]: how the k-th reading of the clock prints
      under [.isoformat()] and under [.timestamp()]. *)
Record Env := {
  llm : option (list LCMessage → string + exn);
  isoformat : nat → string;
  epoch : nat → string
}.

Record World := {
  clock : nat;
  llm_calls : list (list LCMessage)
}.

(** Computations that read the clock, call the client and may raise. *)
Definition M (A : Type) : Type := World → (A + exn) * World.

Definition ret {A} (a : A) : M A := λ w, (inl a, w).

Definition raise {A} (e : exn) : M A := λ w, (inr e, w).

Definition bind {A B} (c : M A) (k : A → M B) : M B :=
  λ w, match c w with
       | (inl a, w') => k a w'
       | (inr e, w') => (inr e, w')
       end.

(** [try: c  except Exception as e: h e] *)
Definition try_except {A} (c : M A) (h : exn → M A) : M A :=
  λ w, match c w with
       | (inl a, w') => (inl a, w')
       | (inr e, w') => h e w'
       end.

Notation "'let*' x ':=' c 'in' k" := (bind c (λ x, k))
  (at level 10, x name, c at level 200, k at level 200, only parsing).

(** [datetime.now()]: the next reading of the clock. *)
Definition now : M nat :=
  λ w, (inl (clock w), {| clock := S (clock w); llm_calls := llm_calls w |}).

(** [client.invoke(prompt).content]: the call is recorded and its outcome
    returned or raised. *)
Definition invoke (client : list LCMessage → string + exn)
    (prompt : list LCMessage) : M string :=
  λ w, (client prompt,
        {| clock := clock w; llm_calls := llm_calls w ++ [prompt] |}).

(** ** config.py *)

Module Config.
(** [MAX_CONVERSATION_HISTORY = int(os.getenv('MAX_CONVERSATION_HISTORY', '5'))],
    given the parsed value of the environment variable when it is set. *)
Definition MAX_CONVERSATION_HISTORY (getenv : option nat) : nat :=
  default 5 getenv.
End Config.

(** ** app.py: isha_agent *)

Definition indent : string := "        ".

(** The f-string of the system message (lines 81..96). *)
Definition system_prompt (user_name : string) : string :=
  nl +:+
  indent +:+ "You are Isha, a professional AI assistant. You are responding to a voice message from " +:+ user_name +:+ "." +:+ nl +:+
  indent +:+ nl +:+
  indent +:+ "Key guidelines:" +:+ nl +:+
  indent +:+ "1. Keep responses conversational and natural for voice interaction" +:+ nl +:+
  indent +:+ "2. Be concise but informative - avoid overly long responses" +:+ nl +:+
  indent +:+ "3. Speak directly to the user in a warm, friendly tone" +:+ nl +:+
  indent +:+ "4. Provide clear, actionable answers" +:+ nl +:+
  indent +:+ "5. If the question is complex, break it down into simple points" +:+ nl +:+
  indent +:+ "6. Use natural speech patterns and avoid overly formal language" +:+ nl +:+
  indent +:+ "7. Keep responses under 150 words when possible for better voice experience" +:+ nl +:+
  indent +:+ "8. If you need to provide lists, use " +:+ dq +:+ "first" +:+ dq +:+ ", " +:+ dq +:+ "second" +:+ dq +:+ ", " +:+ dq +:+ "third" +:+ dq +:+ " instead of bullet points" +:+ nl +:+
  indent +:+ nl +:+
  indent +:+ "Remember: Your response will be spoken aloud to the user, so make it sound natural and conversational." +:+ nl +:+
  indent +:+ "Current conversation context: You are having a voice conversation with " +:+ user_name +:+ "." +:+ nl +:+
  indent.

(** [messages[-5:] if len(messages) > 5 else messages] *)
Definition recent_messages (messages : list Message) : list Message :=
  if 5 <? length messages then drop (length messages - 5) messages
  else messages.

(** One iteration of the loop over [recent_messages] (lines 104..107). *)
Definition append_turn (conversation_messages : list LCMessage) (msg : Message)
    : list LCMessage :=
  if get_eq (role msg) "user" then
    conversation_messages ++ [HumanMessage (default "" (content msg))]
  else if get_eq (role msg) "assistant" then
    conversation_messages ++ [AIMessage (default "" (content msg))]
  else conversation_messages.

(** [conversation_messages] after the loop (lines 99..107). *)
Definition conversation_messages (user_name : string) (messages : list Message)
    : list LCMessage :=
  foldl append_turn [SystemMessage (system_prompt user_name)]
        (recent_messages messages).

Definition ack_phrases : list string :=
  ["replying to"; "responding to"; "you said"; "your message"].

(** [any(phrase in ai_response.lower() for phrase in [...])] *)
Definition acknowledges (ai_response : string) : bool :=
  existsb (λ phrase, contains phrase (lower ai_response)) ack_phrases.

Definition ack_prefix : string := "I'm replying to your message: ".

(** Lines 115..116. *)
Definition ensure_acknowledged (ai_response : string) : string :=
  if negb (acknowledges ai_response) then ack_prefix +:+ ai_response
  else ai_response.

(** The f-string of the fallback response (line 120). *)
Definition fallback_response (user_name user_input : string) : string :=
  "Hi " +:+ user_name +:+ "! I heard you say '" +:+ user_input +:+
  "'. I'm Isha, your AI assistant. I'm currently running in demo mode and need the Gemini API to be configured for full functionality. But I'm still here to help you with whatever you need!".

(** The f-string of the error message (line 142). *)
Definition error_response (user_name : string) : string :=
  "Hi " +:+ user_name +:+
  "! I encountered a technical issue while processing your request, but don't worry - I'm still here to help! Please try asking your question again.".

(** The dict of lines 123..128. *)
Definition ai_message (ai_response ts mid : string) : Message :=
  {| role := Some "assistant";
     content := Some ai_response;
     timestamp := Some ts;
     message_id := Some ("isha_" +:+ mid);
     error := None |}.

(** The dict of lines 140..146. *)
Definition error_message (user_name ts mid : string) : Message :=
  {| role := Some "assistant";
     content := Some (error_response user_name);
     timestamp := Some ts;
     message_id := Some ("isha_error_" +:+ mid);
     error := Some true |}.

(** [{**state, "messages": msgs}] *)
Definition with_messages (state : ConversationState) (msgs : list Message)
    : ConversationState :=
  {| messages := msgs; user_name := user_name state; context := context state |}.

(** Lines 110..120: the reply text. *)
Definition generate (env : Env) (prompt : list LCMessage)
    (user_name user_input : string) : M string :=
  match llm env with
  | Some client =>
      let* ai_response := invoke client prompt in
      ret (ensure_acknowledged ai_response)
  | None => ret (fallback_response user_name user_input)
  end.

(** The body of the [try] (lines 65..136). *)
Definition isha_try (env : Env) (state : ConversationState)
    : M ConversationState :=
  let msgs := messages state in
  let name := user_name state in
  if negb (list_truthy msgs) then ret state
  else
    let last_message := if list_truthy msgs then last msgs else None in
    match last_message with
    | None => ret state
    | Some last_message =>
        if negb (dict_truthy last_message)
           || negb (get_eq (role last_message) "user")
        then ret state
        else
          let user_input := default "" (content last_message) in
          let prompt := conversation_messages name msgs in
          let* ai_response := generate env prompt name user_input in
          let* t1 := now in
          let* t2 := now in
          let updated_messages :=
            msgs ++ [ai_message ai_response (isoformat env t1) (epoch env t2)] in
          ret (with_messages state updated_messages)
    end.

(** The [except] clause (lines 138..151). *)
Definition isha_except (env : Env) (state : ConversationState) (e : exn)
    : M ConversationState :=
  let* t1 := now in
  let* t2 := now in
  ret (with_messages state
         (messages state ++
          [error_message (user_name state) (isoformat env t1) (epoch env t2)])).

Definition isha_agent (env : Env) (state : ConversationState)
    : M ConversationState :=
  try_except (isha_try env state) (isha_except env state).

(** [isha_workflow.invoke]: the compiled graph has the single node
    [isha_agent] between its entry point and [END]. *)
Definition isha_workflow_invoke (env : Env) (state : ConversationState)
    : M ConversationState :=
  isha_agent env state.

(** ** app.py: chat *)

(** The JSON body of a request to [/chat], with the four keys that [chat]
    reads.  [None] is an absent key. *)
Record ChatRequest := {
  req_message : option string;
  req_user_name : option string;
  req_conversation_history : option (list Message);
  req_session_id : option string
}.

(** Truth value of the body: [request.get_json()] gave a non-empty object. *)
Definition data_truthy (data : option ChatRequest) : bool :=
  match data with
  | None => false
  | Some d =>
      bool_decide (is_Some (req_message d)) ||
      bool_decide (is_Some (req_user_name d)) ||
      bool_decide (is_Some (req_conversation_history d)) ||
      bool_decide (is_Some (req_session_id d))
  end.

(** A JSON object of text values with its HTTP status. *)
Definition Response : Type := gmap string string * nat.

(** The dict of lines 206..211. *)
Definition user_message_obj (user_message ts mid : string) : Message :=
  {| role := Some "user";
     content := Some user_message;
     timestamp := Some ts;
     message_id := Some ("user_" +:+ mid);
     error := None |}.

(** The dict of lines 236..241. *)
Definition chat_fallback_message (user_name ts mid : string) : Message :=
  {| role := Some "assistant";
     content := Some ("I'm replying to your message, " +:+ user_name +:+
                      ". I'm having trouble processing your request right now, but I'm here to help!");
     timestamp := Some ts;
     message_id := Some ("isha_fallback_" +:+ mid);
     error := None |}.

(** Lines 230..233: the last message whose role is assistant. *)
Definition last_assistant (msgs : list Message) : option Message :=
  list_find (λ msg, get_eq (role msg) "assistant" = true) (reverse msgs)
  ≫= (λ p, Some p.2).

(** The body of the [try] of [chat] (lines 191..253). *)
Definition chat_try (env : Env) (data : option ChatRequest) : M Response :=
  match data with
  | Some d =>
      if negb (data_truthy data) then
        ret ({[ "error" := "No data provided" ]}, 400)
      else
        let user_message := strip (default "" (req_message d)) in
        let name := default "User" (req_user_name d) in
        let conversation_history := default [] (req_conversation_history d) in
        if bool_decide (user_message = "") then
          ret ({[ "error" := "No message provided" ]}, 400)
        else
          let* t1 := now in
          let* t2 := now in
          let obj := user_message_obj user_message (isoformat env t1) (epoch env t2) in
          let* t3 := now in
          let initial_state :=
            {| messages := conversation_history ++ [obj];
               user_name := name;
               context := {[ "session_id" := default "default" (req_session_id d);
                             "timestamp" := isoformat env t3 ]} |} in
          let* result := isha_workflow_invoke env initial_state in
          let* ai_response :=
            match last_assistant (messages result) with
            | Some msg =>
                if dict_truthy msg then ret msg
                else
                  let* t4 := now in let* t5 := now in
                  ret (chat_fallback_message name (isoformat env t4) (epoch env t5))
            | None =>
                let* t4 := now in let* t5 := now in
                ret (chat_fallback_message name (isoformat env t4) (epoch env t5))
            end in
          let response_data : gmap string string :=
            {[ "response" := default "" (content ai_response);
               "message_id" := default "" (message_id ai_response);
               "timestamp" := default "" (timestamp ai_response);
               "user_name" := name;
               "status" := "success" ]} in
          ret (response_data, 200)
  | None => ret ({[ "error" := "No data provided" ]}, 400)
  end.

(** The [except] clause of [chat] (lines 255..262). *)
Definition chat_except (env : Env) (e : exn) : M Response :=
  let* t := now in
  ret ({[ "error" := "Internal server error";
          "message" := "I'm replying to your message, but I encountered an error. Please try again!";
          "status" := "error";
          "timestamp" := isoformat env t ]}, 500).

Definition chat (env : Env) (data : option ChatRequest) : M Response :=
  try_except (chat_try env data) (chat_except env).

(** ** Vocabulary of the statements *)

(** The role of the last message, if there is one and it has a role. *)
Definition last_role (state : ConversationState) : option string :=
  last (messages state) ≫= role.

(** The turn a message contributes to the prompt, if any. *)
Definition prompt_turn (msg : Message) : option LCMessage :=
  match role msg with
  | Some r =>
      if bool_decide (r = "user") then
        Some (HumanMessage (default "" (content msg)))
      else if bool_decide (r = "assistant") then
        Some (AIMessage (default "" (content msg)))
      else None
  | None => None
  end.



(** The last [n] elements of a list, in their order. *)
Definition most_recent {A} (n : nat) (l : list A) : list A :=
  drop (length l - n) l.

(** A text contains one of the acknowledgement phrases, whatever the case of
    its letters. *)
Definition mentions_ack_phrase (text : string) : Prop :=
  ∃ phrase, phrase ∈ ack_phrases ∧ is_substring phrase (lower text).

(** The world after a run that read the clock twice and sent [calls] to the
    client. *)
Definition tick2 (w : World) (calls : list (list LCMessage)) : World :=
  {| clock := S (S (clock w)); llm_calls := llm_calls w ++ calls |}.

(** The run of [isha_agent] returns normally with exactly one message
    appended, and that message has role assistant. *)
Definition appends_one_assistant (env : Env) (state : ConversationState)
    (w : World) : Prop :=
  ∃ state' w' reply,
    isha_agent env state w = (inl state', w') ∧
    messages state' = messages state ++ [reply] ∧
    length (messages state') = S (length (messages state)) ∧
    role reply = Some "assistant".

(** The run of [isha_agent] returns normally with the demonstration-mode
    reply appended. *)
Definition appends_demo_reply (env : Env) (state : ConversationState)
    (w : World) : Prop :=
  ∃ state' w' last_message reply,
    isha_agent env state w = (inl state', w') ∧
    last (messages state) = Some last_message ∧
    messages state' = messages state ++ [reply] ∧
    content reply =
      Some (fallback_response (user_name state)
              (default "" (content last_message))).


(** The endpoint answers with a success object whose status is success, whose
    field [text_field] holds a non-empty text and whose user name is [name]. *)
Definition chat_succeeds (text_field name : string) (env : Env)
    (request : ChatRequest) (w : World) : Prop :=
  ∃ (body : gmap string string) w' text,
    chat env (Some request) w = (inl (body, 200), w') ∧
    body !! "status" = Some "success" ∧
    body !! text_field = Some text ∧ text ≠ "" ∧
    body !! "user_name" = Some name.

(** ** Sample environments, states and requests *)

Definition sample_env (client : option (list LCMessage → string + exn)) : Env :=
  {| llm := client;
     isoformat := λ _, "2024-05-01T10:00:00";
     epoch := λ _, "1714557600.0" |}.

(** No client configured. *)
Definition demo_env : Env := sample_env None.

(** A client that answers. *)
Definition sunny_env : Env := sample_env (Some (λ _, inl "It is sunny.")).

(** A client whose call raises. *)
Definition failing_env : Env :=
  sample_env (Some (λ _, inr (Exception "429 quota exceeded"))).

Definition w0 : World := {| clock := 0; llm_calls := [] |}.

Definition plain_message (r text : string) : Message :=
  {| role := Some r; content := Some text;
     timestamp := None; message_id := None; error := None |}.

Definition empty_state : ConversationState :=
  {| messages := []; user_name := "Sam"; context := ∅ |}.

Definition hello_state : ConversationState :=
  {| messages := [plain_message "user" "hello"];
     user_name := "Sam";
     context := {[ "session_id" := "default" ]} |}.

Definition answered_state : ConversationState :=
  {| messages := [plain_message "user" "hello"; plain_message "assistant" "hi"];
     user_name := "Sam";
     context := ∅ |}.

(** Six messages; the third has a role that is neither user nor assistant. *)
Definition noted_state : ConversationState :=
  {| messages := [plain_message "user" "one";
                  plain_message "assistant" "two";
                  plain_message "system" "three";
                  plain_message "user" "four";
                  plain_message "assistant" "five";
                  plain_message "user" "six"];
     user_name := "Sam";
     context := ∅ |}.

Definition weather_request : ChatRequest :=
  {| req_message := Some "What's the weather";
     req_user_name := Some "Sam";
     req_conversation_history := Some [];
     req_session_id := None |}.

(** ** app.py: start-up and the status routes *)



(** A JSON value, as far as the status routes need it. *)
#[warnings="-register-all"] Inductive json :=
| JStr (s : string)
| JBool (b : bool)
| JObj (fields : list (string * json)).



(** Truth value of an optional text: it is there and not empty. *)
Definition text_truthy (o : option string) : bool :=
  match o with
  | Some s => negb (bool_decide (s = ""))
  | None => false
  end.


(** [get_config] of [app.py] (lines 278..289). *)
Definition get_config (GEMINI_API_KEY : option string) : json :=
  JObj [("gemini_configured", JBool (bool_decide (is_Some GEMINI_API_KEY)));
        ("model", JStr "gemini-1.5-flash");
        ("features",
         JObj [("voice_recognition", JBool true);
               ("conversation_history", JBool true);
               ("personalized_responses", JBool true)])].

(** ** config.py: the configuration classes *)

Module config.

(** [os.environ] once [load_dotenv()] has run. *)
Abbreviation Environ := (gmap string string).

(** [os.getenv(k, d)] *)
Definition getenv (environ : Environ) (k d : string) : string :=
  default d (environ !! k).

Inductive config_class := Config | DevelopmentConfig | ProductionConfig.

(** The class attributes, by class: a subclass overrides what it sets.
    The attributes that are parsed numbers ([PORT], [MODEL_TEMPERATURE],
    [MAX_OUTPUT_TOKENS]) are left out. *)
Definition GEMINI_API_KEY (environ : Environ) : string :=
  getenv environ "GEMINI_API_KEY" "".

Definition SECRET_KEY (cls : config_class) (environ : Environ) : string :=
  match cls with
  | ProductionConfig => getenv environ "SECRET_KEY" ""
  | _ => getenv environ "SECRET_KEY" "dev-secret-key-change-in-production"
  end.

Definition DEBUG (cls : config_class) (environ : Environ) : bool :=
  match cls with
  | Config => bool_decide (getenv environ "FLASK_ENV" "development" = "development")
  | DevelopmentConfig => true
  | ProductionConfig => false
  end.

Definition HOST (environ : Environ) : string := getenv environ "HOST" "0.0.0.0".

Definition LOG_LEVEL (cls : config_class) (environ : Environ) : string :=
  match cls with
  | Config => getenv environ "LOG_LEVEL" "INFO"
  | DevelopmentConfig => "DEBUG"
  | ProductionConfig => "WARNING"
  end.

(** [bool(cls.GEMINI_API_KEY and cls.GEMINI_API_KEY.strip())] *)
Definition is_gemini_configured (environ : Environ) : bool :=
  let key := GEMINI_API_KEY environ in
  if bool_decide (key = "") then false
  else negb (bool_decide (strip key = "")).

(** [sep.join(l)] *)
Fixpoint join (sep : string) (l : list string) : string :=
  match l with
  | [] => ""
  | [x] => x
  | x :: l' => x +:+ sep +:+ join sep l'
  end.

(** The list [errors] of [validate_production_config] before the test. *)
Definition production_errors (environ : Environ) : list string :=
  let errors := [] in
  let errors :=
    if bool_decide (SECRET_KEY ProductionConfig environ = "")
    then errors ++ ["SECRET_KEY must be set in production"] else errors in
  let errors :=
    if bool_decide (GEMINI_API_KEY environ = "")
    then errors ++ ["GEMINI_API_KEY must be set in production"] else errors in
  errors.

(** [ProductionConfig.validate_production_config]: returns, or raises the
    [ValueError] with this message. *)
Definition validate_production_config (environ : Environ) : unit + exn :=
  let errors := production_errors environ in
  if list_truthy errors then
    inr (Exception ("Production configuration errors: " +:+ join ", " errors))
  else inl tt.

(** [get_config]: the class of the instance it returns. *)
Definition get_config (environ : Environ) : config_class :=
  let env := getenv environ "FLASK_ENV" "development" in
  if bool_decide (env = "production") then ProductionConfig
  else DevelopmentConfig.

End config.

(** ** run.py *)

Module run.

(** How [main] ends: it calls [app.run(host, port, debug)], or it leaves
    through [sys.exit(code)]. *)
Inductive outcome :=
| AppRun (host : string) (port : Z) (debug : bool)
| SysExit (code : nat).

(** [config.validate_production_config()] on an instance of the class: only
    [ProductionConfig] has the method. *)
Definition call_validate (cls : config.config_class)
    (environ : config.Environ) : unit + exn :=
  match cls with
  | config.ProductionConfig => config.validate_production_config environ
  | _ => inr (Exception "AttributeError: validate_production_config")
  end.

(** [main] up to the call of [app.run].  [PORT] is the value of
    [Config.PORT]; [startup_io_ok] tells whether the input and output of the
    start-up went through, that is opening the log file in [setup_logging]
    and printing the banner in [check_environment] (when one of them raises,
    the handler of line 78 exits).  The printed lines themselves are not
    modelled. *)
Definition main (environ : config.Environ) (PORT : Z) (startup_io_ok : bool)
    : outcome :=
  if negb startup_io_ok then SysExit 1
  else
    let cls := config.get_config environ in
    if negb (config.DEBUG cls environ) then
      match call_validate cls environ with
      | inl _ => AppRun (config.HOST environ) PORT (config.DEBUG cls environ)
      | inr _ => SysExit 1
      end
    else AppRun (config.HOST environ) PORT (config.DEBUG cls environ).

End run.

(** ** More vocabulary *)

(** Every character of the text is whitespace. *)
Fixpoint all_space (s : string) : bool :=
  match s with
  | EmptyString => true
  | String c s' => is_space c && all_space s'
  end.

(** The world after [n] more clock readings and the calls [calls]. *)
Definition advance (n : nat) (calls : list (list LCMessage)) (w : World) : World :=
  {| clock := n + clock w; llm_calls := llm_calls w ++ calls |}.

(** A conversational turn of a prompt. *)
Definition is_dialogue_turn (t : LCMessage) : Prop :=
  ∃ text, t = HumanMessage text ∨ t = AIMessage text.

(** What [chat] reads from the body of a request. *)
Definition chat_user_message (d : ChatRequest) : string :=
  strip (default "" (req_message d)).

Definition chat_user_name (d : ChatRequest) : string :=
  default "User" (req_user_name d).

Definition chat_history (d : ChatRequest) : list Message :=
  default [] (req_conversation_history d).

(** The state that [chat] hands to the workflow when it starts in world [w]. *)
Definition chat_initial_state (env : Env) (d : ChatRequest) (w : World)
    : ConversationState :=
  {| messages :=
       chat_history d ++
       [user_message_obj (chat_user_message d)
          (isoformat env (clock w)) (epoch env (S (clock w)))];
     user_name := chat_user_name d;
     context := {[ "session_id" := default "default" (req_session_id d);
                   "timestamp" := isoformat env (S (S (clock w))) ]} |}.

(** The prompt of a request: the system instruction, the turns of the four
    most recent messages of the history, and the new message. *)
Definition chat_prompt (d : ChatRequest) : list LCMessage :=
  SystemMessage (system_prompt (chat_user_name d)) ::
  omap prompt_turn (most_recent 4 (chat_history d)) ++
  [HumanMessage (chat_user_message d)].

(** The text of the answer, by what the client does with the prompt. *)
Definition chat_reply_text (env : Env) (d : ChatRequest) : string :=
  match llm env with
  | None => fallback_response (chat_user_name d) (chat_user_message d)
  | Some client =>
      match client (chat_prompt d) with
      | inl text => ensure_acknowledged text
      | inr _ => error_response (chat_user_name d)
      end
  end.

(** The prefix of the message id of the answer. *)
Definition chat_reply_id_prefix (env : Env) (d : ChatRequest) : string :=
  match llm env with
  | None => "isha_"
  | Some client =>
      match client (chat_prompt d) with
      | inl _ => "isha_"
      | inr _ => "isha_error_"
      end
  end.

(** The prompts that reach the client while a request is served. *)
Definition chat_calls (env : Env) (d : ChatRequest) : list (list LCMessage) :=
  match llm env with
  | None => []
  | Some _ => [chat_prompt d]
  end.

(** The request carries no message: no body, no [message] key, or a message
    of whitespace only. *)
Definition request_blank (data : option ChatRequest) : bool :=
  match data with
  | None => true
  | Some d => all_space (default "" (req_message d))
  end.

(** Every character of the text is an ASCII character. *)
Fixpoint ascii_text (s : string) : bool :=
  match s with
  | EmptyString => true
  | String c s' => (nat_of_ascii c <? 128) && ascii_text s'
  end.

(** The request carries a message: a text of ASCII characters, on which the
    model of [str.strip] is exact, that is not made of whitespace only. *)
Definition has_message (d : ChatRequest) : bool :=
  ascii_text (default "" (req_message d)) &&
  negb (all_space (default "" (req_message d))).

(** The object that [chat] returns with status 200. *)
Definition success_body (env : Env) (d : ChatRequest) (w : World)
    : gmap string string :=
  {[ "response" := chat_reply_text env d;
     "message_id" := chat_reply_id_prefix env d +:+ epoch env (4 + clock w);
     "timestamp" := isoformat env (3 + clock w);
     "user_name" := chat_user_name d;
     "status" := "success" ]}.

(** * Properties *)

(** ** Text *)

Section text.
Implicit Types (p s a b : string) (c : ascii).

Lemma append_cons c a b : String c a +:+ b = String c (a +:+ b).
Proof. reflexivity. Qed.


Lemma lower_append a b : lower (a +:+ b) = lower a +:+ lower b.
Proof.
  induction a as [|c a IH]; [done|].
  rewrite append_cons. simpl. by rewrite IH.
Qed.

Lemma starts_with_spec p s : starts_with p s = true ↔ ∃ r, s = p +:+ r.
Proof.
  revert s. induction p as [|c p IH]; intros s; simpl.
  - split; [intros _; by exists s | done].
  - destruct s as [|d s].
    + split; [done | intros [r [=]]].
    + rewrite andb_true_iff, bool_decide_eq_true, IH. split.
      * intros [-> [r ->]]. by exists r.
      * intros [r Hr]. rewrite append_cons in Hr. injection Hr as -> ->.
        split; [done | by exists r].
Qed.

Lemma contains_spec p s : contains p s = true ↔ is_substring p s.
Proof.
  unfold is_substring. induction s as [|c s IH]; simpl.
  - rewrite orb_false_r, starts_with_spec. split.
    + intros [r Hr]. by exists "", r.
    + intros ([|d a] & b & Hab); [by exists b | done].
  - rewrite orb_true_iff, starts_with_spec, IH. split.
    + intros [[r Hr] | (a & b & ->)].
      * by exists "", r.
      * by exists (String c a), b.
    + intros ([|d a] & b & Hab).
      * left. by exists b.
      * rewrite append_cons in Hab. injection Hab as -> ->.
        right. by exists a, b.
Qed.



Lemma acknowledges_spec s : acknowledges s = true ↔ mentions_ack_phrase s.
Proof.
  unfold acknowledges, mentions_ack_phrase. rewrite existsb_exists. split.
  - intros (phrase & Hin & Hc). exists phrase.
    by rewrite list_elem_of_In, <- contains_spec.
  - intros (phrase & Hin & Hc). exists phrase.
    by rewrite <- list_elem_of_In, contains_spec.
Qed.

Lemma acknowledges_prefixed s : acknowledges (ack_prefix +:+ s) = true.
Proof.
  apply acknowledges_spec. exists "replying to". split.
  - apply list_elem_of_here.
  - rewrite lower_append. by exists "i'm ", (" your message: " +:+ lower s).
Qed.

Lemma ensure_acknowledged_ok s : acknowledges (ensure_acknowledged s) = true.
Proof.
  unfold ensure_acknowledged. destruct (acknowledges s) eqn:E; simpl.
  - done.
  - apply acknowledges_prefixed.
Qed.

End text.

(** ** The prompt *)

Lemma get_eq_true o s : get_eq o s = true ↔ o = Some s.
Proof. unfold get_eq. apply bool_decide_eq_true. Qed.

Lemma get_eq_false o s : get_eq o s = false ↔ o ≠ Some s.
Proof. unfold get_eq. apply bool_decide_eq_false. Qed.

Lemma prompt_turn_user msg :
  role msg = Some "user" →
  prompt_turn msg = Some (HumanMessage (default "" (content msg))).
Proof. unfold prompt_turn. by intros ->. Qed.

Lemma prompt_turn_assistant msg :
  role msg = Some "assistant" →
  prompt_turn msg = Some (AIMessage (default "" (content msg))).
Proof. unfold prompt_turn. by intros ->. Qed.

Lemma prompt_turn_other msg :
  role msg ≠ Some "user" → role msg ≠ Some "assistant" →
  prompt_turn msg = None.
Proof.
  unfold prompt_turn. intros Hu Ha. destruct (role msg) as [r|]; [|done].
  repeat case_bool_decide; congruence.
Qed.

Lemma append_turn_spec acc msg :
  append_turn acc msg = acc ++ option_list (prompt_turn msg).
Proof.
  unfold append_turn.
  destruct (get_eq (role msg) "user") eqn:Hu.
  - apply get_eq_true in Hu. by rewrite prompt_turn_user.
  - destruct (get_eq (role msg) "assistant") eqn:Ha.
    + apply get_eq_true in Ha. by rewrite prompt_turn_assistant.
    + apply get_eq_false in Hu, Ha.
      rewrite prompt_turn_other by done. simpl. by rewrite app_nil_r.
Qed.

Lemma foldl_append_turn acc l :
  foldl append_turn acc l = acc ++ omap prompt_turn l.
Proof.
  revert acc. induction l as [|msg l IH]; intros acc; simpl.
  - by rewrite app_nil_r.
  - rewrite IH, append_turn_spec, <- app_assoc.
    by destruct (prompt_turn msg).
Qed.

Lemma recent_messages_spec (msgs : list Message) :
  recent_messages msgs = most_recent 5 msgs.
Proof.
  unfold recent_messages, most_recent.
  destruct (5 <? length msgs) eqn:E; [done|].
  apply Nat.ltb_ge in E.
  by replace (length msgs - 5) with 0 by lia.
Qed.

Lemma conversation_messages_spec name msgs :
  conversation_messages name msgs =
  SystemMessage (system_prompt name) :: omap prompt_turn (most_recent 5 msgs).
Proof.
  unfold conversation_messages.
  by rewrite foldl_append_turn, recent_messages_spec.
Qed.

Lemma most_recent_length {A} n (l : list A) :
  length (most_recent n l) = n `min` length l.
Proof. unfold most_recent. rewrite length_drop. lia. Qed.




Lemma omap_prompt_turn_length l : length (omap prompt_turn l) ≤ length l.
Proof.
  induction l as [|msg l IH]; [done|].
  change (omap prompt_turn (msg :: l)) with
    (match prompt_turn msg with
     | Some t => t :: omap prompt_turn l
     | None => omap prompt_turn l
     end).
  destruct (prompt_turn msg); simpl in *; lia.
Qed.

(** ** The four outcomes of a run *)

Lemma last_role_user state :
  last_role state = Some "user" ↔
  ∃ msg, last (messages state) = Some msg ∧ role msg = Some "user".
Proof.
  unfold last_role. destruct (last (messages state)) as [msg|]; simpl.
  - split; [intros H; by exists msg | by intros (? & [= <-] & ?)].
  - split; [done | by intros (? & [=] & _)].
Qed.

(** The guard of lines 68..76 returns the state as it is. *)
Lemma isha_try_skip env state w :
  last_role state ≠ Some "user" → isha_try env state w = (inl state, w).
Proof.
  unfold last_role, isha_try. intros H.
  destruct (messages state) as [|m0 l] eqn:E; [done|].
  change (list_truthy (m0 :: l)) with true. cbn [negb]. cbv iota.
  destruct (last (m0 :: l)) as [msg|]; [|done].
  simpl in H. apply get_eq_false in H. rewrite H.
  by rewrite orb_true_r.
Qed.

(** Past the guard, the run is the reply followed by two clock readings. *)
Lemma isha_try_reply env state msg w :
  last (messages state) = Some msg → role msg = Some "user" →
  isha_try env state w =
  match generate env (conversation_messages (user_name state) (messages state))
          (user_name state) (default "" (content msg)) w with
  | (inl ai_response, w') =>
      (inl (with_messages state
              (messages state ++
               [ai_message ai_response (isoformat env (clock w'))
                  (epoch env (S (clock w')))])),
       {| clock := S (S (clock w')); llm_calls := llm_calls w' |})
  | (inr e, w') => (inr e, w')
  end.
Proof.
  intros Hlast Hrole. unfold isha_try.
  destruct (messages state) as [|m0 l] eqn:E; [done|].
  change (list_truthy (m0 :: l)) with true. cbn [negb]. cbv iota.
  rewrite Hlast.
  assert (dict_truthy msg = true) as ->.
  { unfold dict_truthy. rewrite Hrole. done. }
  assert (get_eq (role msg) "user" = true) as -> by by apply get_eq_true.
  simpl. unfold bind.
  by destruct (generate _ _ _ _ w) as [[ai|e] w'].
Qed.

Lemma isha_agent_skip env state w :
  last_role state ≠ Some "user" → isha_agent env state w = (inl state, w).
Proof.
  intros H. unfold isha_agent, try_except. by rewrite isha_try_skip.
Qed.

Lemma isha_agent_demo env state msg w :
  llm env = None →
  last (messages state) = Some msg → role msg = Some "user" →
  isha_agent env state w =
  (inl (with_messages state
          (messages state ++
           [ai_message
              (fallback_response (user_name state) (default "" (content msg)))
              (isoformat env (clock w)) (epoch env (S (clock w)))])),
   tick2 w []).
Proof.
  intros Hllm Hlast Hrole. unfold isha_agent, try_except.
  rewrite (isha_try_reply _ _ msg) by done.
  unfold generate. rewrite Hllm. unfold ret, tick2. by rewrite app_nil_r.
Qed.

Lemma isha_agent_success env client state msg text w :
  llm env = Some client →
  last (messages state) = Some msg → role msg = Some "user" →
  client (conversation_messages (user_name state) (messages state)) = inl text →
  isha_agent env state w =
  (inl (with_messages state
          (messages state ++
           [ai_message (ensure_acknowledged text)
              (isoformat env (clock w)) (epoch env (S (clock w)))])),
   tick2 w [conversation_messages (user_name state) (messages state)]).
Proof.
  intros Hllm Hlast Hrole Hcall. unfold isha_agent, try_except.
  rewrite (isha_try_reply _ _ msg) by done.
  unfold generate. rewrite Hllm. unfold bind, invoke. by rewrite Hcall.
Qed.

Lemma isha_try_failure env client state msg e w :
  llm env = Some client →
  last (messages state) = Some msg → role msg = Some "user" →
  client (conversation_messages (user_name state) (messages state)) = inr e →
  isha_try env state w =
  (inr e,
   {| clock := clock w;
      llm_calls := llm_calls w ++
        [conversation_messages (user_name state) (messages state)] |}).
Proof.
  intros Hllm Hlast Hrole Hcall.
  rewrite (isha_try_reply _ _ msg) by done.
  unfold generate. rewrite Hllm. unfold bind, invoke. by rewrite Hcall.
Qed.

(** Whatever the body raised, the handler appends the error message. *)
Lemma isha_agent_handler env state e w w1 :
  isha_try env state w = (inr e, w1) →
  isha_agent env state w =
  (inl (with_messages state
          (messages state ++
           [error_message (user_name state)
              (isoformat env (clock w1)) (epoch env (S (clock w1)))])),
   {| clock := S (S (clock w1)); llm_calls := llm_calls w1 |}).
Proof.
  intros H. unfold isha_agent, try_except. by rewrite H.
Qed.

Lemma isha_agent_failure env client state msg e w :
  llm env = Some client →
  last (messages state) = Some msg → role msg = Some "user" →
  client (conversation_messages (user_name state) (messages state)) = inr e →
  isha_agent env state w =
  (inl (with_messages state
          (messages state ++
           [error_message (user_name state)
              (isoformat env (clock w)) (epoch env (S (clock w)))])),
   tick2 w [conversation_messages (user_name state) (messages state)]).
Proof.
  intros Hllm Hlast Hrole Hcall.
  by rewrite (isha_agent_handler _ _ e w _
                (isha_try_failure _ _ _ _ _ _ Hllm Hlast Hrole Hcall)).
Qed.



Lemma fallback_response_nonempty name input : fallback_response name input ≠ "".
Proof. done. Qed.

Lemma error_response_nonempty name : error_response name ≠ "".
Proof. done. Qed.

Lemma acknowledges_empty : acknowledges "" = false.
Proof. reflexivity. Qed.

Lemma ensure_acknowledged_nonempty text : ensure_acknowledged text ≠ "".
Proof.
  unfold ensure_acknowledged. destruct (acknowledges text) eqn:E; simpl.
  - intros ->. by rewrite acknowledges_empty in E.
  - done.
Qed.

(** Past the guard, every run appends one non-empty assistant message. *)
Lemma isha_agent_reply env state msg w :
  last (messages state) = Some msg → role msg = Some "user" →
  ∃ reply w' text,
    isha_agent env state w =
      (inl (with_messages state (messages state ++ [reply])), w') ∧
    role reply = Some "assistant" ∧
    content reply = Some text ∧ text ≠ "".
Proof.
  intros Hlast Hrole. destruct (llm env) as [client|] eqn:Hllm.
  - destruct (client (conversation_messages (user_name state) (messages state)))
      as [text|e] eqn:Hcall.
    + eexists _, _, _. split; [by eapply isha_agent_success|].
      split_and!; [done..|]. apply ensure_acknowledged_nonempty.
    + eexists _, _, _. split; [by eapply isha_agent_failure|].
      split_and!; [done..|]. apply error_response_nonempty.
  - eexists _, _, _. split; [by eapply isha_agent_demo|].
    split_and!; [done..|]. apply fallback_response_nonempty.
Qed.

(** ** The turn processor *)

(** C1, as stated, fails: an invocation is not always followed by an appended
    message.  With an empty history the guard returns the state as it is, so
    the length of [messages] grows by 0. *)
Lemma isha_agent_empty_history_appends_nothing :
  isha_agent demo_env empty_state w0 = (inl empty_state, w0) ∧
  ¬ appends_one_assistant demo_env empty_state w0.
Proof.
  split; [reflexivity|].
  intros (state' & w' & reply & Hrun & Hmsgs & _).
  rewrite isha_agent_skip in Hrun by done.
  injection Hrun as <- <-. simpl in Hmsgs. discriminate Hmsgs.
Qed.

(** C1, amended: for every invocation of [isha_agent] that passes the guard
    (the history is not empty and its last message has role user), exactly
    one message is appended and it has role assistant, whether the client
    answers, is absent, or raises; the length of [messages] grows by
    exactly 1. *)
Theorem isha_agent_appends_one_assistant env state w :
  last_role state = Some "user" → appends_one_assistant env state w.
Proof.
  intros (msg & Hlast & Hrole)%last_role_user.
  destruct (isha_agent_reply env state msg w Hlast Hrole)
    as (reply & w' & text & Hrun & Hr & _).
  exists (with_messages state (messages state ++ [reply])), w', reply.
  split_and!; [done..| |done].
  simpl. rewrite length_app. simpl. lia.
Qed.

(** A one-message history on the three paths: the client answers, there is
    no client, the client's call raises. *)
Lemma isha_agent_appends_one_assistant_witness :
  appends_one_assistant sunny_env hello_state w0 ∧
  appends_one_assistant demo_env hello_state w0 ∧
  appends_one_assistant failing_env hello_state w0.
Proof.
  split_and!; apply isha_agent_appends_one_assistant; reflexivity.
Defined.

(** C2, as stated, fails: when the client's call raises, the reply that is
    appended is not the demonstration-mode reply. *)
Lemma client_failure_is_not_demo_reply :
  isha_agent failing_env hello_state w0 =
    (inl (with_messages hello_state
            [plain_message "user" "hello";
             error_message "Sam" "2024-05-01T10:00:00" "1714557600.0"]),
     {| clock := 2;
        llm_calls := [[SystemMessage (system_prompt "Sam");
                       HumanMessage "hello"]] |}) ∧
  ¬ appends_demo_reply failing_env hello_state w0.
Proof.
  split; [reflexivity|].
  intros (state' & w' & msg & reply & Hrun & Hlast & Hmsgs & Hcontent).
  rewrite (isha_agent_failure failing_env _ hello_state
             (plain_message "user" "hello") (Exception "429 quota exceeded"))
    in Hrun by done.
  injection Hrun as <- <-. injection Hlast as <-.
  simpl in Hmsgs. injection Hmsgs as <-. by vm_compute in Hcontent.
Qed.

(** C2, amended: when the client is available and its call raises, the
    failure is not propagated: [isha_agent] returns normally, having called
    the client exactly once (no retry), and appends one assistant message
    that carries the apology with the error flag set, which is not the
    demonstration-mode reply. *)
Theorem isha_agent_client_failure env client state msg e w :
  llm env = Some client →
  last (messages state) = Some msg → role msg = Some "user" →
  client (conversation_messages (user_name state) (messages state)) = inr e →
  ∃ reply w',
    isha_agent env state w =
      (inl (with_messages state (messages state ++ [reply])), w') ∧
    llm_calls w' =
      llm_calls w ++ [conversation_messages (user_name state) (messages state)] ∧
    role reply = Some "assistant" ∧
    content reply = Some (error_response (user_name state)) ∧
    error reply = Some true ∧
    content reply ≠
      Some (fallback_response (user_name state) (default "" (content msg))).
Proof.
  intros Hllm Hlast Hrole Hcall.
  eexists _, _. split; [by eapply isha_agent_failure|].
  split_and!; [done..|]. simpl. intros [= H].
  unfold error_response, fallback_response in H.
  do 2 apply (inj (String.app _)) in H. discriminate H.
Qed.

(** A client that answers every call with a quota error. *)
Lemma isha_agent_client_failure_witness :
  ∃ reply w',
    isha_agent failing_env hello_state w0 =
      (inl (with_messages hello_state (messages hello_state ++ [reply])), w') ∧
    llm_calls w' = [conversation_messages "Sam" (messages hello_state)] ∧
    role reply = Some "assistant" ∧
    content reply = Some (error_response "Sam") ∧
    error reply = Some true ∧
    content reply ≠ Some (fallback_response "Sam" "hello").
Proof.
  apply (isha_agent_client_failure failing_env
           (λ _, inr (Exception "429 quota exceeded")) hello_state
           (plain_message "user" "hello") (Exception "429 quota exceeded") w0);
    reflexivity.
Defined.



(** C4: when the history is empty, or its last message does not have role
    user, [isha_agent] is a no-op: it returns the state it was given, with
    no message appended and no field changed (and it neither reads the clock
    nor calls the client). *)
Theorem isha_agent_noop env state w :
  messages state = [] ∨
  (∃ msg, last (messages state) = Some msg ∧ role msg ≠ Some "user") →
  isha_agent env state w = (inl state, w).
Proof.
  intros H. apply isha_agent_skip. unfold last_role.
  destruct H as [-> | (msg & -> & Hrole)]; simpl; [done|].
  by destruct (role msg).
Qed.

(** An empty history, and a history that ends with an assistant message. *)
Lemma isha_agent_noop_witness :
  isha_agent sunny_env empty_state w0 = (inl empty_state, w0) ∧
  isha_agent sunny_env answered_state w0 = (inl answered_state, w0).
Proof.
  split.
  - apply isha_agent_noop. left. reflexivity.
  - apply isha_agent_noop. right. exists (plain_message "assistant" "hi").
    split; [reflexivity | discriminate].
Defined.



(** ** The prompt window *)

Lemma isha_agent_calls env client state w :
  llm env = Some client → last_role state = Some "user" →
  llm_calls (isha_agent env state w).2 =
  llm_calls w ++ [conversation_messages (user_name state) (messages state)].
Proof.
  intros Hllm (msg & Hlast & Hrole)%last_role_user.
  destruct (client (conversation_messages (user_name state) (messages state)))
    as [text|e] eqn:Hcall.
  - by erewrite isha_agent_success.
  - by erewrite isha_agent_failure.
Qed.




(** C10: with a client available, a message of the window whose role is
    neither user nor assistant contributes no turn to the prompt: the prompt
    is the system instruction, the turns of the messages before it and the
    turns of the messages after it, so that the conversational turns are
    strictly fewer than the messages of the window.  This happens also with
    more than 5 messages: there is a history of six messages whose prompt
    has fewer than 5 conversational turns. *)
Theorem prompt_skips_other_roles :
  (∀ env client state w before msg after,
     llm env = Some client → last_role state = Some "user" →
     most_recent 5 (messages state) = before ++ msg :: after →
     role msg ≠ Some "user" → role msg ≠ Some "assistant" →
     let turns := omap prompt_turn before ++ omap prompt_turn after in
     llm_calls (isha_agent env state w).2 =
       llm_calls w ++ [SystemMessage (system_prompt (user_name state)) :: turns] ∧
     length turns < length (most_recent 5 (messages state))) ∧
  (∃ state turns,
     5 < length (messages state) ∧
     llm_calls (isha_agent sunny_env state w0).2 =
       [SystemMessage (system_prompt (user_name state)) :: turns] ∧
     length turns < 5).
Proof.
  split.
  - intros env client state w before msg after Hllm Hguard Hwindow Hu Ha turns.
    assert (omap prompt_turn (most_recent 5 (messages state)) = turns) as Hturns.
    { rewrite Hwindow, omap_app. simpl. by rewrite prompt_turn_other. }
    split.
    + rewrite (isha_agent_calls _ client) by done.
      by rewrite conversation_messages_spec, Hturns.
    + rewrite Hwindow. unfold turns. rewrite !length_app. simpl.
      pose proof (omap_prompt_turn_length before).
      pose proof (omap_prompt_turn_length after). lia.
  - exists noted_state,
      [AIMessage "two"; HumanMessage "four"; AIMessage "five"; HumanMessage "six"].
    split_and!; [simpl; lia | reflexivity | simpl; lia].
Qed.

(** Six messages, the third of role system: it falls in the window and is
    left out of the prompt. *)
Lemma prompt_skips_other_roles_witness :
  5 < length (messages noted_state) ∧
  llm_calls (isha_agent sunny_env noted_state w0).2 =
    [[SystemMessage (system_prompt "Sam");
      AIMessage "two"; HumanMessage "four"; AIMessage "five";
      HumanMessage "six"]] ∧
  4 < length (most_recent 5 (messages noted_state)).
Proof.
  split; [simpl; lia|].
  apply (proj1 prompt_skips_other_roles sunny_env (λ _, inl "It is sunny.")
           noted_state w0
           [plain_message "assistant" "two"] (plain_message "system" "three")
           [plain_message "user" "four"; plain_message "assistant" "five";
            plain_message "user" "six"]);
    [reflexivity | reflexivity | reflexivity | discriminate | discriminate].
Defined.

(** ** Degraded mode and the frame *)



(** C9: on every path, the returned state has the [user_name] and the
    [context] of the input state, and the input [messages] are a prefix of
    the returned [messages]: no message is changed, moved or removed. *)
Theorem isha_agent_frame env state w :
  ∃ state' w',
    isha_agent env state w = (inl state', w') ∧
    user_name state' = user_name state ∧
    context state' = context state ∧
    messages state `prefix_of` messages state'.
Proof.
  destruct (decide (last_role state = Some "user")) as [Hu|Hn].
  - apply last_role_user in Hu as (msg & Hlast & Hrole).
    destruct (isha_agent_reply env state msg w Hlast Hrole)
      as (reply & w' & text & Hrun & _).
    eexists _, _. split; [exact Hrun|].
    split_and!; [done..|]. simpl. by apply prefix_app_r.
  - eexists _, _. split; [by apply isha_agent_skip|]. done.
Qed.

(** ** The chat endpoint *)

Lemma last_assistant_snoc msgs reply :
  role reply = Some "assistant" → last_assistant (msgs ++ [reply]) = Some reply.
Proof.
  intros Hrole. unfold last_assistant. rewrite reverse_snoc. simpl.
  rewrite decide_True; [done|]. by apply get_eq_true.
Qed.

Lemma dict_truthy_role msg r : role msg = Some r → dict_truthy msg = true.
Proof. unfold dict_truthy. by intros ->. Qed.

(** A request with a message that is not blank is answered with the content
    of the message that [isha_agent] appended. *)
Lemma chat_try_reply env d w :
  data_truthy (Some d) = true →
  strip (default "" (req_message d)) ≠ "" →
  ∃ reply w' text,
    role reply = Some "assistant" ∧ content reply = Some text ∧ text ≠ "" ∧
    chat_try env (Some d) w =
      (inl ({[ "response" := text;
               "message_id" := default "" (message_id reply);
               "timestamp" := default "" (timestamp reply);
               "user_name" := default "User" (req_user_name d);
               "status" := "success" ]}, 200), w').
Proof.
  intros Hdata Hmsg. unfold chat_try. rewrite Hdata. cbn [negb].
  rewrite bool_decide_eq_false_2 by done.
  unfold bind at 1. cbn [now]. unfold bind at 1. cbn [now].
  unfold bind at 1. cbn [now]. unfold bind at 1.
  match goal with
  | |- context [isha_workflow_invoke env ?st ?w1] =>
      destruct (isha_agent_reply env st
                  (user_message_obj (strip (default "" (req_message d)))
                     (isoformat env (clock w)) (epoch env (S (clock w)))) w1)
        as (reply & w' & text & Hrun & Hrole & Hcontent & Htext)
  end.
  { simpl. by rewrite last_snoc. }
  { done. }
  unfold isha_workflow_invoke. rewrite Hrun.
  exists reply, w', text. split_and!; [done..|].
  cbn [messages with_messages]. rewrite last_assistant_snoc by done.
  rewrite (dict_truthy_role reply "assistant") by done.
  unfold bind, ret. by rewrite Hcontent.
Qed.

(** C8, as stated, fails on the name of one field: the object that [/chat]
    returns for this request has no field [response_text]. *)
Lemma chat_has_no_response_text :
  (∃ (body : gmap string string) w',
     chat demo_env (Some weather_request) w0 = (inl (body, 200), w') ∧
     body !! "response_text" = None ∧
     body !! "response" =
       Some (fallback_response "Sam" "What's the weather")) ∧
  ¬ chat_succeeds "response_text" "Sam" demo_env weather_request w0.
Proof.
  split; [eexists _, _; split_and!; reflexivity|].
  intros (body & w' & text & Hrun & _ & Hfield & _).
  vm_compute in Hrun. injection Hrun as <- <-.
  vm_compute in Hfield. discriminate Hfield.
Qed.

(** C8, amended: for the request body with message "What's the weather",
    user_name "Sam" and an empty conversation_history, [/chat] returns, with
    or without a client and whether or not its call succeeds, an object whose
    status field is "success", whose response field (the reply text) is not
    empty, and whose user_name field is "Sam". *)
Theorem chat_weather_round_trip env w :
  chat_succeeds "response" "Sam" env weather_request w.
Proof.
  destruct (chat_try_reply env weather_request w)
    as (reply & w' & text & _ & _ & Htext & Hrun); [done..|].
  unfold chat_succeeds, chat, try_except. rewrite Hrun.
  eexists _, w', text. split; [done|].
  split_and!; [reflexivity | reflexivity | done | reflexivity].
Qed.

(** ** config.py *)

(** The window of [isha_agent] is the literal 5; it is the default of
    [Config.MAX_CONVERSATION_HISTORY], which [app.py] does not read. *)
Remark window_is_config_default msgs :
  recent_messages msgs = most_recent (Config.MAX_CONVERSATION_HISTORY None) msgs.
Proof. apply recent_messages_spec. Qed.

(** * Further properties of the code *)

(** ** isha_agent: runs, prompts and replies *)

Lemma last_role_with_reply state reply :
  last_role (with_messages state (messages state ++ [reply])) = role reply.
Proof. unfold last_role. simpl. by rewrite last_snoc. Qed.

(** X1: [isha_agent] is idempotent.  Whatever the state and the client, a
    second run on the state that a first run returned gives that state back
    unchanged, without reading the clock or calling the client: either the
    first run was a no-op, or it appended an assistant message, which the
    guard of the second run refuses. *)
Theorem isha_agent_idempotent env state w :
  ∃ state' w',
    isha_agent env state w = (inl state', w') ∧
    isha_agent env state' w' = (inl state', w').
Proof.
  destruct (decide (last_role state = Some "user")) as [Hu|Hn].
  - apply last_role_user in Hu as (msg & Hlast & Hrole).
    destruct (isha_agent_reply env state msg w Hlast Hrole)
      as (reply & w' & text & Hrun & Hr & _).
    eexists _, _. split; [exact Hrun|].
    apply isha_agent_skip. rewrite last_role_with_reply, Hr. discriminate.
  - exists state, w. split; by apply isha_agent_skip.
Qed.

Lemma prompt_turn_dialogue msg t : prompt_turn msg = Some t → is_dialogue_turn t.
Proof.
  unfold prompt_turn, is_dialogue_turn. destruct (role msg) as [r|]; [|done].
  repeat case_bool_decide; intros [= <-]; eauto.
Qed.

Lemma omap_prompt_turn_dialogue_turns l :
  Forall is_dialogue_turn (omap prompt_turn l).
Proof.
  apply Forall_forall. intros t (msg & _ & Ht)%list_elem_of_omap.
  by eapply prompt_turn_dialogue.
Qed.

(** X2: the prompt is bounded and holds one system message only.  Whenever
    the client is called, its prompt is the system instruction followed by at
    most 5 turns, each of them a human or an AI turn: no message of the
    history, whatever its role, becomes a second system message. *)
Theorem prompt_shape env client state w :
  llm env = Some client → last_role state = Some "user" →
  ∃ turns,
    llm_calls (isha_agent env state w).2 =
      llm_calls w ++ [SystemMessage (system_prompt (user_name state)) :: turns] ∧
    length turns ≤ 5 ∧
    length turns ≤ length (messages state) ∧
    Forall is_dialogue_turn turns.
Proof.
  intros Hllm Hguard.
  exists (omap prompt_turn (most_recent 5 (messages state))).
  split_and!.
  - rewrite (isha_agent_calls _ client) by done.
    by rewrite conversation_messages_spec.
  - etrans; [apply omap_prompt_turn_length|].
    rewrite most_recent_length. lia.
  - etrans; [apply omap_prompt_turn_length|].
    rewrite most_recent_length. lia.
  - apply omap_prompt_turn_dialogue_turns.
Qed.

(** Six messages reach the client as the system message and four turns. *)
Lemma prompt_shape_witness :
  ∃ turns,
    llm_calls (isha_agent sunny_env noted_state w0).2 =
      [SystemMessage (system_prompt "Sam") :: turns] ∧
    length turns ≤ 5 ∧
    length turns ≤ length (messages noted_state) ∧
    Forall is_dialogue_turn turns.
Proof.
  apply (prompt_shape sunny_env (λ _, inl "It is sunny.") noted_state w0);
    reflexivity.
Defined.

Lemma most_recent_snoc {A} n (l : list A) x :
  most_recent (S n) (l ++ [x]) = most_recent n l ++ [x].
Proof.
  unfold most_recent. rewrite length_app. simpl.
  replace (length l + 1 - S n) with (length l - n) by lia.
  apply drop_app_le. lia.
Qed.

Lemma conversation_messages_snoc name l msg :
  role msg = Some "user" →
  conversation_messages name (l ++ [msg]) =
  SystemMessage (system_prompt name) ::
  omap prompt_turn (most_recent 4 l) ++ [HumanMessage (default "" (content msg))].
Proof.
  intros Hrole.
  rewrite conversation_messages_spec, most_recent_snoc, omap_app. simpl.
  by rewrite prompt_turn_user.
Qed.

(** X3: the prompt ends with the message that is being answered.  Whenever
    the client is called, the last turn of its prompt is the human turn that
    carries the content of the last message of the history (the empty text
    when that message has no content), and before it come the turns of at
    most the four messages that precede it. *)
Theorem prompt_ends_with_user_input env client state msg w :
  llm env = Some client →
  last (messages state) = Some msg → role msg = Some "user" →
  ∃ earlier turns,
    messages state = earlier ++ [msg] ∧
    turns = omap prompt_turn (most_recent 4 earlier) ∧
    llm_calls (isha_agent env state w).2 =
      llm_calls w ++
      [SystemMessage (system_prompt (user_name state)) ::
       turns ++ [HumanMessage (default "" (content msg))]].
Proof.
  intros Hllm Hlast Hrole.
  apply last_Some in Hlast as Hsplit. destruct Hsplit as [earlier Hsplit].
  exists earlier, (omap prompt_turn (most_recent 4 earlier)).
  split_and!; [done..|].
  rewrite (isha_agent_calls _ client) by (done || by apply last_role_user; eauto).
  by rewrite Hsplit, conversation_messages_snoc.
Qed.

(** The sixth message of the sample history closes its prompt. *)
Lemma prompt_ends_with_user_input_witness :
  ∃ earlier turns,
    messages noted_state = earlier ++ [plain_message "user" "six"] ∧
    turns = omap prompt_turn (most_recent 4 earlier) ∧
    llm_calls (isha_agent sunny_env noted_state w0).2 =
      [SystemMessage (system_prompt "Sam") :: turns ++ [HumanMessage "six"]].
Proof.
  apply (prompt_ends_with_user_input sunny_env (λ _, inl "It is sunny.")
           noted_state (plain_message "user" "six") w0); reflexivity.
Defined.




(** X6: the acknowledgement prefix is never stacked: applying the check of
    lines 115..116 to a text that already went through it changes nothing. *)
Theorem ensure_acknowledged_idempotent text :
  ensure_acknowledged (ensure_acknowledged text) = ensure_acknowledged text.
Proof.
  unfold ensure_acknowledged at 1. by rewrite ensure_acknowledged_ok.
Qed.

(** ** chat: rejected and answered requests *)

Lemma lstrip_all_space s : all_space (lstrip s) = all_space s.
Proof.
  induction s as [|c s IH]; [done|]. simpl.
  destruct (is_space c) eqn:E; simpl; [done | by rewrite E].
Qed.

Lemma rstrip_empty s : rstrip s = "" ↔ all_space s = true.
Proof.
  induction s as [|c s IH]; [done|]. simpl.
  destruct (rstrip s) as [|c' r].
  - destruct (is_space c); simpl; [|done]. by rewrite <- IH.
  - split; [done|]. intros [_ H]%andb_true_iff. by apply IH in H.
Qed.

Lemma strip_empty s : strip s = "" ↔ all_space s = true.
Proof. unfold strip. by rewrite rstrip_empty, lstrip_all_space. Qed.

Lemma request_blank_falsy d :
  data_truthy (Some d) = false → request_blank (Some d) = true.
Proof.
  unfold data_truthy. simpl. destruct (req_message d); [|done].
  by rewrite bool_decide_eq_true_2 by eauto.
Qed.




Lemma chat_state_prompt env d w :
  conversation_messages (user_name (chat_initial_state env d w))
    (messages (chat_initial_state env d w)) = chat_prompt d.
Proof. simpl. by rewrite conversation_messages_snoc. Qed.

Lemma chat_state_last env d w :
  last (messages (chat_initial_state env d w)) =
  Some (user_message_obj (chat_user_message d)
          (isoformat env (clock w)) (epoch env (S (clock w)))).
Proof. simpl. by rewrite last_snoc. Qed.

(** The workflow on the state of a request. *)
Lemma chat_workflow env d w w1 :
  ∃ reply,
    isha_agent env (chat_initial_state env d w) w1 =
      (inl (with_messages (chat_initial_state env d w)
              (messages (chat_initial_state env d w) ++ [reply])),
       advance 2 (chat_calls env d) w1) ∧
    role reply = Some "assistant" ∧
    content reply = Some (chat_reply_text env d) ∧
    timestamp reply = Some (isoformat env (clock w1)) ∧
    message_id reply =
      Some (chat_reply_id_prefix env d +:+ epoch env (S (clock w1))).
Proof.
  pose proof (chat_state_last env d w) as Hlast.
  pose proof (chat_state_prompt env d w) as Hprompt.
  unfold chat_reply_text, chat_reply_id_prefix, chat_calls.
  destruct (llm env) as [client|] eqn:Hllm.
  - destruct (client (chat_prompt d)) as [text|e] eqn:Hcall.
    + eexists. split.
      * erewrite isha_agent_success; [|done..|by rewrite Hprompt].
        by rewrite Hprompt.
      * done.
    + eexists. split.
      * erewrite isha_agent_failure; [|done..|by rewrite Hprompt].
        by rewrite Hprompt.
      * done.
  - eexists. split; [by erewrite isha_agent_demo|done].
Qed.

(** A request with a message: the whole answer. *)
Lemma chat_try_answer env d w :
  request_blank (Some d) = false →
  chat_try env (Some d) w =
  (inl (success_body env d w, 200), advance 5 (chat_calls env d) w).
Proof.
  intros Hblank. unfold chat_try.
  destruct (data_truthy (Some d)) eqn:Hdata;
    [|apply request_blank_falsy in Hdata; congruence].
  cbn [negb]. rewrite bool_decide_eq_false_2;
    [|rewrite strip_empty; simpl in Hblank; congruence].
  unfold bind at 1. cbn [now]. unfold bind at 1. cbn [now].
  unfold bind at 1. cbn [now]. unfold bind at 1.
  unfold isha_workflow_invoke.
  match goal with
  | |- context [isha_agent env _ ?w1] =>
      destruct (chat_workflow env d w w1)
        as (reply & Hrun & Hrole & Hcontent & Hts & Hid)
  end.
  unfold chat_initial_state, chat_user_message, chat_user_name, chat_history
    in Hrun.
  cbn [clock llm_calls] in Hrun |- *.
  rewrite Hrun. cbn [messages with_messages].
  rewrite last_assistant_snoc by done.
  rewrite (dict_truthy_role reply "assistant") by done.
  unfold bind, ret. rewrite Hcontent, Hts, Hid. simpl.
  unfold success_body, advance. simpl. done.
Qed.

Lemma has_message_not_blank d :
  has_message d = true → request_blank (Some d) = false.
Proof.
  unfold has_message. simpl. intros [_ H]%andb_true_iff.
  by apply negb_true_iff.
Qed.




(** X10: only the four most recent messages of the history count, and the
    session id does not.  Two requests with the same message and user name
    whose histories agree on their four most recent messages get the same
    answer, and the client sees the same prompt. *)
Theorem chat_ignores_older_history env d1 d2 w :
  has_message d1 = true →
  req_message d1 = req_message d2 →
  req_user_name d1 = req_user_name d2 →
  most_recent 4 (chat_history d1) = most_recent 4 (chat_history d2) →
  chat env (Some d1) w = chat env (Some d2) w.
Proof.
  intros Hblank Hmsg Hname Hhist.
  assert (has_message d2 = true) as Hblank2.
  { unfold has_message in *. by rewrite <- Hmsg. }
  unfold chat, try_except.
  rewrite !chat_try_answer by by apply has_message_not_blank.
  assert (chat_prompt d1 = chat_prompt d2) as Hprompt.
  { unfold chat_prompt, chat_user_name, chat_user_message.
    by rewrite Hmsg, Hname, Hhist. }
  unfold success_body, chat_calls, chat_reply_text, chat_reply_id_prefix,
    chat_user_name, chat_user_message.
  by rewrite Hprompt, Hmsg, Hname.
Qed.

(** An older message and a session id change nothing. *)
Lemma chat_ignores_older_history_witness :
  chat sunny_env
    (Some {| req_message := Some "and tomorrow?";
             req_user_name := Some "Sam";
             req_conversation_history :=
               Some [plain_message "assistant" "one";
                     plain_message "user" "two";
                     plain_message "assistant" "three";
                     plain_message "user" "four"];
             req_session_id := None |}) w0 =
  chat sunny_env
    (Some {| req_message := Some "and tomorrow?";
             req_user_name := Some "Sam";
             req_conversation_history :=
               Some [plain_message "user" "zero";
                     plain_message "assistant" "one";
                     plain_message "user" "two";
                     plain_message "assistant" "three";
                     plain_message "user" "four"];
             req_session_id := Some "s-42" |}) w0.
Proof.
  apply (chat_ignores_older_history sunny_env
           {| req_message := Some "and tomorrow?";
              req_user_name := Some "Sam";
              req_conversation_history :=
                Some [plain_message "assistant" "one";
                      plain_message "user" "two";
                      plain_message "assistant" "three";
                      plain_message "user" "four"];
              req_session_id := None |}
           {| req_message := Some "and tomorrow?";
              req_user_name := Some "Sam";
              req_conversation_history :=
                Some [plain_message "user" "zero";
                      plain_message "assistant" "one";
                      plain_message "user" "two";
                      plain_message "assistant" "three";
                      plain_message "user" "four"];
              req_session_id := Some "s-42" |} w0);
    reflexivity.
Defined.

(** X11: a failure of the client is answered as a success.  When the
    client's call raises on the prompt of the request, [chat] still answers
    200 with status "success"; the reply text is the apology, and the body
    has the five fields of every success and nothing that tells the failure:
    no [error] field, only the [isha_error_] prefix of the message id. *)
Theorem chat_masks_client_failure env client d e w :
  has_message d = true →
  llm env = Some client → client (chat_prompt d) = inr e →
  ∃ (body : gmap string string) w',
    chat env (Some d) w = (inl (body, 200), w') ∧
    body !! "status" = Some "success" ∧
    body !! "response" = Some (error_response (chat_user_name d)) ∧
    body !! "message_id" = Some ("isha_error_" +:+ epoch env (4 + clock w)) ∧
    body !! "error" = None ∧
    dom body =
      {[ "response"; "message_id"; "timestamp"; "user_name"; "status" ]}.
Proof.
  intros Hblank%has_message_not_blank Hllm Hcall. eexists _, _.
  split; [unfold chat, try_except; by rewrite chat_try_answer|].
  unfold success_body, chat_reply_text, chat_reply_id_prefix.
  rewrite Hllm, Hcall.
  split_and!; [reflexivity..|]. rewrite !dom_insert_L, dom_singleton_L.
  set_solver.
Qed.

(** The weather request when the client is out of quota. *)
Lemma chat_masks_client_failure_witness :
  ∃ (body : gmap string string) w',
    chat failing_env (Some weather_request) w0 = (inl (body, 200), w') ∧
    body !! "status" = Some "success" ∧
    body !! "response" = Some (error_response "Sam") ∧
    body !! "message_id" = Some "isha_error_1714557600.0" ∧
    body !! "error" = None ∧
    dom body =
      {[ "response"; "message_id"; "timestamp"; "user_name"; "status" ]}.
Proof.
  apply (chat_masks_client_failure failing_env
           (λ _, inr (Exception "429 quota exceeded")) weather_request
           (Exception "429 quota exceeded") w0); reflexivity.
Defined.

(** ** Start-up and the status routes *)





(** ** config.py and run.py *)

(** X14: what [get_config] decides.  Debug mode is off exactly when
    [FLASK_ENV] is set to "production"; every other value, and an unset
    variable, gives the development class with debug on.  The log level of
    the instance is DEBUG or WARNING accordingly: the [LOG_LEVEL] variable
    has no effect on it. *)
Theorem get_config_decides (environ : config.Environ) :
  let cls := config.get_config environ in
  (config.DEBUG cls environ = false ↔ environ !! "FLASK_ENV" = Some "production") ∧
  config.LOG_LEVEL cls environ =
    (if config.DEBUG cls environ then "DEBUG" else "WARNING") ∧
  (∀ level,
     config.LOG_LEVEL (config.get_config (<["LOG_LEVEL" := level]> environ))
       (<["LOG_LEVEL" := level]> environ) =
     config.LOG_LEVEL cls environ).
Proof.
  unfold config.get_config, config.getenv. split_and!.
  - case_bool_decide as H; simpl.
    + split; [intros _|done].
      destruct (environ !! "FLASK_ENV") as [v|]; simpl in H; by subst.
    + split; [done|]. intros Hv. by rewrite Hv in H.
  - by case_bool_decide.
  - intros level. rewrite lookup_insert_ne by done. by case_bool_decide.
Qed.

Lemma production_errors_table (environ : config.Environ) :
  config.production_errors environ =
  (if bool_decide (default "" (environ !! "SECRET_KEY") = "")
   then ["SECRET_KEY must be set in production"] else []) ++
  (if bool_decide (default "" (environ !! "GEMINI_API_KEY") = "")
   then ["GEMINI_API_KEY must be set in production"] else []).
Proof.
  unfold config.production_errors, config.SECRET_KEY, config.GEMINI_API_KEY,
    config.getenv.
  by repeat case_bool_decide.
Qed.

(** X15: what [validate_production_config] accepts.  It returns exactly when
    [SECRET_KEY] and [GEMINI_API_KEY] are both set to non-empty texts (the
    development default of the secret does not count); otherwise it raises,
    and its message names the missing settings, the secret first. *)
Theorem validate_production_config_table (environ : config.Environ) :
  config.validate_production_config environ =
  match bool_decide (default "" (environ !! "SECRET_KEY") = ""),
        bool_decide (default "" (environ !! "GEMINI_API_KEY") = "") with
  | false, false => inl tt
  | true, false =>
      inr (Exception
             "Production configuration errors: SECRET_KEY must be set in production")
  | false, true =>
      inr (Exception
             "Production configuration errors: GEMINI_API_KEY must be set in production")
  | true, true =>
      inr (Exception
             "Production configuration errors: SECRET_KEY must be set in production, GEMINI_API_KEY must be set in production")
  end.
Proof.
  unfold config.validate_production_config.
  rewrite production_errors_table. by repeat case_bool_decide.
Qed.

(** X16: the two tests of the key differ on blanks.  For a key of ASCII
    text, [run.py] announces the key as configured ([is_gemini_configured])
    exactly when it holds a character that is not whitespace, whereas
    [app.py] builds the client for every non-empty key: whenever [run.py]
    says configured [app.py] agrees, and they disagree exactly for a
    non-empty key of whitespace only. *)
Theorem is_gemini_configured_blank (environ : config.Environ) :
  ascii_text (config.GEMINI_API_KEY environ) = true →
  config.is_gemini_configured environ =
    negb (all_space (config.GEMINI_API_KEY environ)) ∧
  (config.is_gemini_configured environ = true →
   text_truthy (environ !! "GEMINI_API_KEY") = true) ∧
  (text_truthy (environ !! "GEMINI_API_KEY") = true ∧
   config.is_gemini_configured environ = false ↔
   ∃ key, environ !! "GEMINI_API_KEY" = Some key ∧ key ≠ "" ∧
          all_space key = true).
Proof.
  intros _.
  assert (config.is_gemini_configured environ =
          negb (all_space (config.GEMINI_API_KEY environ))) as Heq.
  { unfold config.is_gemini_configured.
    case_bool_decide as Hk; [by rewrite Hk|].
    f_equal. destruct (all_space (config.GEMINI_API_KEY environ)) eqn:E.
    - by apply bool_decide_eq_true_2, strip_empty.
    - apply bool_decide_eq_false_2. rewrite strip_empty. congruence. }
  split; [done|]. rewrite Heq. clear Heq.
  unfold config.GEMINI_API_KEY, config.getenv.
  destruct (environ !! "GEMINI_API_KEY") as [key|]; simpl.
  - split.
    + intros H. case_bool_decide; [by subst|done].
    + split.
      * intros [Hk Hs]. exists key. split_and!; [done| |].
        -- intros ->. by rewrite bool_decide_eq_true_2 in Hk.
        -- by destruct (all_space key).
      * intros (k & [= <-] & Hk & Hs). rewrite Hs.
        by rewrite bool_decide_eq_false_2.
  - split; [done|]. split; [by intros [[=] _] | by intros (k & [=] & _)].
Qed.

(** A key of two spaces: [app.py] builds the client, [run.py] announces demo
    mode. *)
Lemma is_gemini_configured_blank_witness :
  config.is_gemini_configured {[ "GEMINI_API_KEY" := "  " ]} = false ∧
  text_truthy (({[ "GEMINI_API_KEY" := "  " ]} : config.Environ)
                 !! "GEMINI_API_KEY") = true.
Proof.
  destruct (is_gemini_configured_blank {[ "GEMINI_API_KEY" := "  " ]})
    as (Heq & _ & _); [reflexivity|].
  split; [exact Heq | reflexivity].
Defined.

(** X17: when [main] starts the server.  [main] leaves with exit status 1
    when the log file cannot be opened or the banner cannot be printed, and
    when [FLASK_ENV] is "production"
    while [SECRET_KEY] or [GEMINI_API_KEY] is unset or empty; in every other
    case it calls [app.run] with the configured host and port, with debug on
    unless [FLASK_ENV] is "production".  Outside production the server starts
    without any key. *)
Theorem main_outcome (environ : config.Environ) PORT startup_io_ok :
  let production := bool_decide (environ !! "FLASK_ENV" = Some "production") in
  let missing :=
    bool_decide (default "" (environ !! "SECRET_KEY") = "") ||
    bool_decide (default "" (environ !! "GEMINI_API_KEY") = "") in
  run.main environ PORT startup_io_ok =
  if negb startup_io_ok || (production && missing) then run.SysExit 1
  else run.AppRun (default "0.0.0.0" (environ !! "HOST")) PORT (negb production).
Proof.
  cbv zeta. unfold run.main.
  destruct startup_io_ok; [|done]. cbn [negb orb].
  pose proof (production_errors_table environ) as Hv.
  unfold config.get_config, config.getenv, config.HOST, run.call_validate.
  destruct (environ !! "FLASK_ENV") as [v|] eqn:Hf; simpl.
  - destruct (decide (v = "production")) as [->|Hne].
    + rewrite !bool_decide_eq_true_2 by done. simpl.
      unfold config.validate_production_config. rewrite Hv.
      by repeat case_bool_decide.
    + rewrite !bool_decide_eq_false_2 by congruence. done.
  - done.
Qed.
